(** * khodkar-cli: the [analyze] command of [KhodkarCLI]

    A shallow embedding of [src/cli/commands.ts].  The class drives one
    analysis run: it validates the command-line options, builds the LLM
    configuration, initialises the tool servers, hands the tool catalog to the
    LLM processor, summarises the business rules that come back and passes the
    result to the output formatter.

    The collaborators the class imports ([CLIOptionsSchema], [LLMConfigSchema],
    [McpManager], [LLMProcessor], [OutputFormatter], [ProgressTracker]) are
    not part of this file; their behaviour is a parameter, the record
    [World].  Every call the class makes is recorded in a trace, so that
    ordering and counting statements can be made about a run.

    Constructors, the progress tracker and [console.log] are taken to return
    normally; the schemas, the tool-server manager, the LLM processor and the
    formatter may throw. *)

From Stdlib Require Import String Ascii List ZArith Lia Bool.
From Stdlib Require Import Decimal DecimalString DecimalNat.
Import ListNotations.

Local Open Scope string_scope.
Local Open Scope Z_scope.

(** ** JavaScript values *)

Module JS.

(** The numbers that reach the command are results of [parseInt]: [NaN], a
    double whose value is an integer, or an infinity.  [Num z] is the double
    of value [z]; both zeros are [Num 0], which the command cannot tell
    apart. *)
Inductive number : Type :=
| NaN
| Num (z : Z)
| Infinity (negative : bool).

(** [ToBoolean] on a number: [0], [-0] and [NaN] are falsy. *)
Definition truthy (n : number) : bool :=
  match n with
  | NaN => false
  | Num z => negb (z =? 0)
  | Infinity _ => true
  end.

(** [v || d] for [v : number | undefined] and a number [d]. *)
Definition or_default (v : option number) (d : number) : number :=
  match v with
  | Some n => if truthy n then n else d
  | None => d
  end.

(** The double nearest to an integer, ties to the even significand: exact up
    to [2^53], rounded to 53 significant bits above it, an infinity from
    [2^1024 - 2^970] on. *)
Definition toDouble (m : Z) : number :=
  let a := Z.abs m in
  if a <=? 2 ^ 53 then Num m
  else
    let e := Z.log2 a - 52 in
    let q := Z.shiftr a e in
    let r := a - Z.shiftl q e in
    let half := 2 ^ (e - 1) in
    let q' := if (half <? r) || ((r =? half) && Z.odd q) then q + 1 else q in
    let v := Z.shiftl q' e in
    if 2 ^ 1024 <=? v then Infinity (m <? 0) else Num (Z.sgn m * v).

(** A string is the UTF-8 bytes of the command-line argument.  The members of
    [StrWhiteSpaceChar] of one byte: TAB, LF, VT, FF, CR, SP. *)
Definition isWhiteSpace (c : ascii) : bool :=
  let n := nat_of_ascii c in
  ((9 <=? n) && (n <=? 13))%nat || (n =? 32)%nat.

(** Of two bytes: U+00A0 (C2 A0). *)
Definition isWhiteSpace2 (c1 c2 : ascii) : bool :=
  ((nat_of_ascii c1 =? 194) && (nat_of_ascii c2 =? 160))%nat.

(** Of three bytes: U+1680 (E1 9A 80), U+2000 to U+200A (E2 80 80 to
    E2 80 8A), U+2028 and U+2029 (E2 80 A8, E2 80 A9), U+202F (E2 80 AF),
    U+205F (E2 81 9F), U+3000 (E3 80 80) and U+FEFF (EF BB BF). *)
Definition isWhiteSpace3 (c1 c2 c3 : ascii) : bool :=
  let a := nat_of_ascii c1 in
  let b := nat_of_ascii c2 in
  let c := nat_of_ascii c3 in
  ((a =? 225) && (b =? 154) && (c =? 128)
   || (a =? 226) && (b =? 128)
      && ((128 <=? c) && (c <=? 138) || (c =? 168) || (c =? 169) || (c =? 175))
   || (a =? 226) && (b =? 129) && (c =? 159)
   || (a =? 227) && (b =? 128) && (c =? 128)
   || (a =? 239) && (b =? 187) && (c =? 191))%nat.

(** The first byte of a white space character of three bytes. *)
Definition leadsWhiteSpace3 (c : ascii) : bool :=
  let a := nat_of_ascii c in
  ((a =? 225) || (a =? 226) || (a =? 227) || (a =? 239))%nat.

Fixpoint trimStart (s : string) : string :=
  match s with
  | EmptyString => s
  | String c1 r1 =>
      if isWhiteSpace c1 then trimStart r1
      else if (nat_of_ascii c1 =? 194)%nat then
        match r1 with
        | String c2 r2 => if isWhiteSpace2 c1 c2 then trimStart r2 else s
        | EmptyString => s
        end
      else if leadsWhiteSpace3 c1 then
        match r1 with
        | String c2 (String c3 r3) =>
            if isWhiteSpace3 c1 c2 c3 then trimStart r3 else s
        | _ => s
        end
      else s
  end.

(** Value of a character as a digit, [0-9], [a-z] and [A-Z]. *)
Definition digitValue (c : ascii) : option Z :=
  let n := Z.of_nat (nat_of_ascii c) in
  if (48 <=? n) && (n <=? 57) then Some (n - 48)
  else if (97 <=? n) && (n <=? 122) then Some (n - 87)
  else if (65 <=? n) && (n <=? 90) then Some (n - 55)
  else None.

(** The longest prefix of radix-[R] digits, as an integer; [acc] is [None]
    as long as no digit was read. *)
Fixpoint parseDigits (R : Z) (s : string) (acc : option Z) : option Z :=
  match s with
  | EmptyString => acc
  | String c rest =>
      match digitValue c with
      | Some d =>
          if d <? R
          then parseDigits R rest (Some (R * match acc with Some a => a | None => 0 end + d))
          else acc
      | None => acc
      end
  end.

(** [parseInt(s)] with the radix left undefined, the way commander calls the
    argument parser of an option that is given once: leading white space is
    skipped, a sign is read, a [0x]/[0X] prefix selects radix 16, otherwise
    the radix is 10; no digit gives [NaN]; the integer read is rounded to a
    double.  (ECMAScript lets an implementation replace the digits after the
    twentieth by zeros before rounding; Node rounds the integer as it is.) *)
Definition parseInt (s : string) : number :=
  let s1 := trimStart s in
  let '(sign, s2) :=
    match s1 with
    | String "-" rest => (-1, rest)
    | String "+" rest => (1, rest)
    | _ => (1, s1)
    end in
  let '(R, s3) :=
    match s2 with
    | String "0" (String "x" rest) => (16, rest)
    | String "0" (String "X" rest) => (16, rest)
    | _ => (10, s2)
    end in
  match parseDigits R s3 None with
  | None => NaN
  | Some m => toDouble (sign * m)
  end.

(** Template-literal rendering of an array length. *)
Definition showNat (n : nat) : string :=
  NilZero.string_of_uint (Nat.to_uint n).

End JS.

(** ** Data model *)

(** The options object of the [analyze] command, with the keys commander
    derives from the flags declared in [setupCommands]. *)
Record CLIOptions : Type := mkCLIOptions {
  directory : string;
  output : string;
  llmBaseUrl : string;
  llmApiKey : string;
  llmModel : string;
  format : string;
  verbose : bool;
  llmMaxTokens : option JS.number;
  llmMaxSteps : option JS.number
}.

(** The object literal of [handleAnalyzeCommand] sets [baseUrl], [apiKey],
    [model] and [maxSteps].  [maxTokens] is the remaining key the
    configuration recognises; a key the literal does not set reads
    [undefined], here [None]. *)
Record LLMConfig : Type := mkLLMConfig {
  baseUrl : string;
  apiKey : string;
  model : string;
  maxSteps : JS.number;
  maxTokens : option JS.number
}.

Record BusinessRule : Type := mkBusinessRule {
  id : string;
  title : string;
  description : string;
  category : string;
  priority : string;
  userFacing : bool
}.

Record Summary : Type := mkSummary {
  totalRules : nat;
  highPriorityRules : nat;
  userFacingRules : nat
}.

Record AnalysisResult : Type := mkAnalysisResult {
  analysisDate : string;
  businessRules : list BusinessRule;
  summary : Summary
}.

(** A tool definition as the tool-server manager returns it; the command only
    passes the catalog on. *)
Record Tool : Type := mkTool {
  tool_name : string;
  tool_description : string
}.

(** Thrown values.  [LLMAnalysisError] and [MCPServerError] are the two error
    classes the command imports, with the detail [handleError] reads from
    each; both are taken to extend [Error], as their use of [message] says.
    [Error] is any other instance of [Error]; [NonError] is a thrown value
    that is not an [Error]. *)
Inductive Exn : Type :=
| LLMAnalysisError (message : string) (filePath : option string)
| MCPServerError (message : string) (serverName : option string)
| Error (message : string)
| NonError (value : string).

Definition instanceofError (e : Exn) : bool :=
  match e with
  | NonError _ => false
  | _ => true
  end.

Definition exn_message (e : Exn) : string :=
  match e with
  | LLMAnalysisError m _ => m
  | MCPServerError m _ => m
  | Error m => m
  | NonError _ => ""
  end.

(** [error instanceof Error ? error.message : fallback] *)
Definition messageOr (fallback : string) (e : Exn) : string :=
  if instanceofError e then exn_message e else fallback.

(** ** Observable calls *)

Inductive Chalk : Type := plain | red | gray | blue | green | bold.

(** A console line: styled segments, concatenated. *)
Definition Text : Type := list (Chalk * string).

Inductive Event : Type :=
| NewLLMProcessor (cfg : LLMConfig)
| NewProgressTracker (verbose showETA : bool)
| ProgressStart (msg : string)
| ProgressUpdatePhase (phase msg : string)
| ProgressSucceed (msg : string)
| ProgressFail (msg : string)
| ConsoleLog (line : Text)
| ConsoleError (line : Text)
| InitializeServers
| GetTools
| Analyze (tools : list Tool)
| NewOutputFormatter (includeMetadata includeSourceReferences
                      groupByCategory sortByPriority : bool)
| FormatAndSave (result : AnalysisResult) (path fmt : string)
| Cleanup
| ShutdownServers
| ProcessExit (code : Z).

(** The calls made so far, most recent first. *)
Definition History : Type := list Event.

(** Behaviour of the collaborators.  The two schemas are pure; every other
    answer may depend on the calls made before it. *)
Record World : Type := mkWorld {
  CLIOptionsSchema_parse : CLIOptions -> Exn + CLIOptions;
  LLMConfigSchema_parse : LLMConfig -> Exn + unit;
  initializeServers : History -> Exn + unit;
  getTools : History -> Exn + list Tool;
  analyze : LLMConfig -> list Tool -> History -> Exn + list BusinessRule;
  formatAndSave : AnalysisResult -> string -> string -> History -> Exn + unit;
  cleanup : History -> Exn + unit;
  shutdownServers : History -> Exn + unit;
  toISOString : History -> string
}.

(** ** Promises with a call history *)

Inductive Outcome (A : Type) : Type :=
| Returned (a : A)
| Threw (e : Exn)
| Exited (code : Z).

Arguments Returned {A} a.
Arguments Threw {A} e.
Arguments Exited {A} code.

Definition Async (A : Type) : Type := History -> History * Outcome A.

Definition ret {A} (a : A) : Async A := fun h => (h, Returned a).

Definition throw {A} (e : Exn) : Async A := fun h => (h, Threw e).

Definition bind {A B} (c : Async A) (k : A -> Async B) : Async B :=
  fun h =>
    match c h with
    | (h', Returned a) => k a h'
    | (h', Threw e) => (h', Threw e)
    | (h', Exited n) => (h', Exited n)
    end.

(** [try { c } catch (error) { handler }] *)
Definition tryCatch {A} (c : Async A) (handler : Exn -> Async A) : Async A :=
  fun h =>
    match c h with
    | (h', Threw e) => handler e h'
    | r => r
    end.

Definition ofSum {A} (r : Exn + A) : Outcome A :=
  match r with
  | inl e => Threw e
  | inr a => Returned a
  end.

(** A call that cannot fail. *)
Definition emit (ev : Event) : Async unit := fun h => (ev :: h, Returned tt).

(** A call to a collaborator: it is recorded, and answers from what came
    before it. *)
Definition call {A} (ev : Event) (answer : History -> Exn + A) : Async A :=
  fun h => (ev :: h, ofSum (answer h)).

(** A pure call ([Schema.parse]): not recorded. *)
Definition pure {A} (r : Exn + A) : Async A := fun h => (h, ofSum r).

Definition when (b : bool) (c : Async unit) : Async unit :=
  if b then c else ret tt.

(** [process.exit(code)] *)
Definition processExit {A} (code : Z) : Async A :=
  fun h => (ProcessExit code :: h, Exited code).

Declare Scope async_scope.
Delimit Scope async_scope with async.
Notation "x <- c ;; k" := (bind c (fun x => k))
  (at level 100, c at next level, right associativity) : async_scope.
Notation "c ;; k" := (bind c (fun _ => k))
  (at level 100, right associativity) : async_scope.
Local Open Scope async_scope.

(** ** The command *)

Module KhodkarCLI.

(** What the user gave on the command line of [analyze] when commander
    invokes the action: the five required options are present and each flag
    was given at most once.  Command lines that commander answers itself
    (a missing required option, an unknown option, [--help], [--version]:
    it writes and ends the process without invoking the action) and a flag
    given more than once (the later value is parsed with the earlier one as
    the radix) are not covered. *)
Record AnalyzeArgs : Type := mkAnalyzeArgs {
  arg_directory : string;
  arg_output : string;
  arg_llm_base_url : string;
  arg_llm_api_key : string;
  arg_llm_model : string;
  arg_format : option string;
  arg_verbose : bool;
  arg_llm_max_tokens : option string;
  arg_llm_max_steps : option string
}.

(** The options object commander builds from the declarations of
    [setupCommands]: [--format] has the default ['markdown'], [--verbose] the
    default [false], and the two numeric options go through [parseInt] when
    they are given and stay [undefined] when they are not. *)
Definition setupCommands (a : AnalyzeArgs) : CLIOptions :=
  {| directory := arg_directory a;
     output := arg_output a;
     llmBaseUrl := arg_llm_base_url a;
     llmApiKey := arg_llm_api_key a;
     llmModel := arg_llm_model a;
     format := match arg_format a with Some f => f | None => "markdown" end;
     verbose := arg_verbose a;
     llmMaxTokens := option_map JS.parseInt (arg_llm_max_tokens a);
     llmMaxSteps := option_map JS.parseInt (arg_llm_max_steps a) |}.

Definition validateOptions (w : World) (rawOptions : CLIOptions) : Async CLIOptions :=
  tryCatch
    (pure (CLIOptionsSchema_parse w rawOptions))
    (fun error =>
       let message := messageOr "Unknown error" error in
       throw (Error ("Invalid options: " ++ message))).

(** The object literal of lines 75-80. *)
Definition llmConfigOf (options : CLIOptions) : LLMConfig :=
  {| baseUrl := llmBaseUrl options;
     apiKey := llmApiKey options;
     model := llmModel options;
     maxSteps := JS.or_default (llmMaxSteps options) (JS.Num 50);
     maxTokens := None |}.

(** The summary literal of lines 126-130. *)
Definition summaryOf (rules : list BusinessRule) : Summary :=
  {| totalRules := length rules;
     highPriorityRules :=
       length (filter (fun rule => String.eqb (priority rule) "high") rules);
     userFacingRules := length (filter (fun rule => userFacing rule) rules) |}.

Definition newline : string := String (ascii_of_nat 10) EmptyString.

Definition handleAnalyzeCommand (w : World) (rawOptions : CLIOptions) : Async unit :=
  options <- validateOptions w rawOptions ;;
  let llmConfig := llmConfigOf options in
  tryCatch
    (pure (LLMConfigSchema_parse w llmConfig))
    (fun error =>
       let message := messageOr "Invalid LLM configuration" error in
       throw (Error ("LLM Configuration Error: " ++ message))) ;;
  emit (NewLLMProcessor llmConfig) ;;
  emit (NewProgressTracker (verbose options) true) ;;
  emit (ProgressStart "Initializing analysis...") ;;
  when (verbose options)
    (emit (ConsoleLog [(blue, "🔍 Starting business rules analysis...")]) ;;
     emit (ConsoleLog [(gray, "Directory: " ++ directory options)]) ;;
     emit (ConsoleLog [(gray, "Output: " ++ output options)]) ;;
     emit (ConsoleLog [(gray, "Format: " ++ format options)])) ;;
  emit (ProgressUpdatePhase "scanning" "Initializing MCP servers...") ;;
  call InitializeServers (initializeServers w) ;;
  emit (ProgressUpdatePhase "analyzing" "Analyzing codebase with LLM...") ;;
  tools <- call GetTools (getTools w) ;;
  businessRules <- call (Analyze tools) (analyze w llmConfig tools) ;;
  when (verbose options)
    (emit (ConsoleLog
       [(green, "✓ Extracted " ++ JS.showNat (length businessRules) ++ " business rules")])) ;;
  analysisResult <-
    (fun h => ret {| analysisDate := toISOString w h;
                     businessRules := businessRules;
                     summary := summaryOf businessRules |} h) ;;
  emit (ProgressUpdatePhase "formatting" "Formatting output...") ;;
  emit (NewOutputFormatter true true true true) ;;
  call (FormatAndSave analysisResult (output options) (format options))
       (formatAndSave w analysisResult (output options) (format options)) ;;
  emit (ProgressSucceed "Analysis complete!") ;;
  emit (ConsoleLog [(green, "✅ Analysis complete!")]) ;;
  emit (ConsoleLog [(blue, "📄 Output saved to: " ++ output options)]) ;;
  emit (ConsoleLog [(plain, newline); (bold, "Summary:")]) ;;
  emit (ConsoleLog
    [(plain, "  • Business rules extracted: "
             ++ JS.showNat (totalRules (summary analysisResult)))]) ;;
  emit (ConsoleLog
    [(plain, "  • High priority rules: "
             ++ JS.showNat (highPriorityRules (summary analysisResult)))]) ;;
  emit (ConsoleLog
    [(plain, "  • User-facing rules: "
             ++ JS.showNat (userFacingRules (summary analysisResult)))]) ;;
  call Cleanup (cleanup w) ;;
  call ShutdownServers (shutdownServers w).

(** [error.details?.x] as a condition: present and not the empty string. *)
Definition detailGiven (d : option string) : option string :=
  match d with
  | Some (String c rest) => Some (String c rest)
  | _ => None
  end.

(** Declared by the class, called from nowhere: the only call is inside the
    commented-out [catch] of [handleAnalyzeCommand]. *)
Definition handleError (error : Exn) : Async unit :=
  match error with
  | LLMAnalysisError m fp =>
      emit (ConsoleError [(red, "LLM analysis error: " ++ m)]) ;;
      match detailGiven fp with
      | Some p => emit (ConsoleError [(gray, "File: " ++ p)])
      | None => ret tt
      end
  | MCPServerError m sn =>
      emit (ConsoleError [(red, "MCP server error: " ++ m)]) ;;
      match detailGiven sn with
      | Some n => emit (ConsoleError [(gray, "Server: " ++ n)])
      | None => ret tt
      end
  | _ =>
      let message := messageOr "Unknown error" error in
      emit (ConsoleError [(red, "Unexpected error: " ++ message)])
  end ;;
  processExit 1.

(** [run], from the point where commander invokes the action of [analyze]:
    [parseAsync] awaits the action, and the [try]/[catch] around it is
    commented out, so the promise settles the way the action does. *)
Definition run (w : World) (argv : AnalyzeArgs) : Async unit :=
  handleAnalyzeCommand w (setupCommands argv).

(** A run of the process: [run] from an empty history, calls in the order
    they were made. *)
Definition execute (w : World) (argv : AnalyzeArgs) : list Event * Outcome unit :=
  let '(h, r) := run w argv [] in (List.rev h, r).

End KhodkarCLI.

(** ** The exit paths of [handleAnalyzeCommand]

    The calls of a run up to each point where a collaborator is asked, in the
    order they are made, and the nine ways the run can end. *)

Module Paths.

Import KhodkarCLI.

Local Open Scope list_scope.

Definition banner (o : CLIOptions) : list Event :=
  if verbose o
  then [ ConsoleLog [(blue, "🔍 Starting business rules analysis...")];
         ConsoleLog [(gray, "Directory: " ++ directory o)%string];
         ConsoleLog [(gray, "Output: " ++ output o)%string];
         ConsoleLog [(gray, "Format: " ++ format o)%string] ]
  else [].

(** Up to, not including, [initializeServers]. *)
Definition toDiscovery (o : CLIOptions) : list Event :=
  [ NewLLMProcessor (llmConfigOf o);
    NewProgressTracker (verbose o) true;
    ProgressStart "Initializing analysis..." ]
  ++ banner o
  ++ [ ProgressUpdatePhase "scanning" "Initializing MCP servers..." ].

(** Up to, not including, [getTools]. *)
Definition toCatalog (o : CLIOptions) : list Event :=
  toDiscovery o
  ++ [ InitializeServers;
       ProgressUpdatePhase "analyzing" "Analyzing codebase with LLM..." ].

(** Up to, not including, [analyze]. *)
Definition toAnalysis (o : CLIOptions) : list Event :=
  toCatalog o ++ [ GetTools ].

Definition extracted (o : CLIOptions) (rules : list BusinessRule) : list Event :=
  if verbose o
  then [ ConsoleLog
           [(green, "✓ Extracted " ++ JS.showNat (length rules)
                    ++ " business rules")%string] ]
  else [].

(** Up to the point where the result object is built. *)
Definition toResult (o : CLIOptions) (tools : list Tool)
    (rules : list BusinessRule) : list Event :=
  toAnalysis o ++ [ Analyze tools ] ++ extracted o rules.

Definition resultOf (w : World) (o : CLIOptions) (tools : list Tool)
    (rules : list BusinessRule) : AnalysisResult :=
  {| analysisDate := toISOString w (List.rev (toResult o tools rules));
     businessRules := rules;
     summary := summaryOf rules |}.

(** Up to, not including, [formatAndSave]. *)
Definition toSave (o : CLIOptions) (tools : list Tool)
    (rules : list BusinessRule) : list Event :=
  toResult o tools rules
  ++ [ ProgressUpdatePhase "formatting" "Formatting output...";
       NewOutputFormatter true true true true ].

Definition saveCall (w : World) (o : CLIOptions) (tools : list Tool)
    (rules : list BusinessRule) : Event :=
  FormatAndSave (resultOf w o tools rules) (output o) (format o).

Definition report (o : CLIOptions) (s : Summary) : list Event :=
  [ ProgressSucceed "Analysis complete!";
    ConsoleLog [(green, "✅ Analysis complete!")];
    ConsoleLog [(blue, "📄 Output saved to: " ++ output o)%string];
    ConsoleLog [(plain, newline); (bold, "Summary:")];
    ConsoleLog [(plain, "  • Business rules extracted: "
                        ++ JS.showNat (totalRules s))%string];
    ConsoleLog [(plain, "  • High priority rules: "
                        ++ JS.showNat (highPriorityRules s))%string];
    ConsoleLog [(plain, "  • User-facing rules: "
                        ++ JS.showNat (userFacingRules s))%string] ].

(** Up to, not including, [cleanup]. *)
Definition toCleanup (w : World) (o : CLIOptions) (tools : list Tool)
    (rules : list BusinessRule) : list Event :=
  toSave o tools rules ++ [ saveCall w o tools rules ]
  ++ report o (summaryOf rules).

Section Path.

Variable w : World.
Variable raw : CLIOptions.

(** The options passed validation and so did the configuration built from
    them. *)
Definition configured (o : CLIOptions) : Prop :=
  CLIOptionsSchema_parse w raw = inr o /\
  LLMConfigSchema_parse w (llmConfigOf o) = inr tt.

(** The analysis returned [rules] for the catalog [tools]. *)
Definition analysed (o : CLIOptions) (tools : list Tool)
    (rules : list BusinessRule) : Prop :=
  configured o /\
  initializeServers w (List.rev (toDiscovery o)) = inr tt /\
  getTools w (List.rev (toCatalog o)) = inr tools /\
  analyze w (llmConfigOf o) tools (List.rev (toAnalysis o)) = inr rules.

Definition saved (o : CLIOptions) (tools : list Tool)
    (rules : list BusinessRule) : Prop :=
  analysed o tools rules /\
  formatAndSave w (resultOf w o tools rules) (output o) (format o)
    (List.rev (toSave o tools rules)) = inr tt.

Inductive Path : list Event -> Outcome unit -> Prop :=
| OptionsRejected e :
    CLIOptionsSchema_parse w raw = inl e ->
    Path [] (Threw (Error ("Invalid options: " ++ messageOr "Unknown error" e)))
| ConfigRejected o e :
    CLIOptionsSchema_parse w raw = inr o ->
    LLMConfigSchema_parse w (llmConfigOf o) = inl e ->
    Path [] (Threw (Error ("LLM Configuration Error: "
                           ++ messageOr "Invalid LLM configuration" e)))
| DiscoveryFailed o e :
    configured o ->
    initializeServers w (List.rev (toDiscovery o)) = inl e ->
    Path (toDiscovery o ++ [InitializeServers]) (Threw e)
| CatalogFailed o e :
    configured o ->
    initializeServers w (List.rev (toDiscovery o)) = inr tt ->
    getTools w (List.rev (toCatalog o)) = inl e ->
    Path (toCatalog o ++ [GetTools]) (Threw e)
| AnalysisFailed o tools e :
    configured o ->
    initializeServers w (List.rev (toDiscovery o)) = inr tt ->
    getTools w (List.rev (toCatalog o)) = inr tools ->
    analyze w (llmConfigOf o) tools (List.rev (toAnalysis o)) = inl e ->
    Path (toAnalysis o ++ [Analyze tools]) (Threw e)
| SaveFailed o tools rules e :
    analysed o tools rules ->
    formatAndSave w (resultOf w o tools rules) (output o) (format o)
      (List.rev (toSave o tools rules)) = inl e ->
    Path (toSave o tools rules ++ [saveCall w o tools rules]) (Threw e)
| CleanupFailed o tools rules e :
    saved o tools rules ->
    cleanup w (List.rev (toCleanup w o tools rules)) = inl e ->
    Path (toCleanup w o tools rules ++ [Cleanup]) (Threw e)
| ShutdownFailed o tools rules e :
    saved o tools rules ->
    cleanup w (List.rev (toCleanup w o tools rules)) = inr tt ->
    shutdownServers w (List.rev (toCleanup w o tools rules ++ [Cleanup])) = inl e ->
    Path (toCleanup w o tools rules ++ [Cleanup; ShutdownServers]) (Threw e)
| Succeeded o tools rules :
    saved o tools rules ->
    cleanup w (List.rev (toCleanup w o tools rules)) = inr tt ->
    shutdownServers w (List.rev (toCleanup w o tools rules ++ [Cleanup])) = inr tt ->
    Path (toCleanup w o tools rules ++ [Cleanup; ShutdownServers]) (Returned tt).

End Path.

End Paths.

(** ** Reading a trace *)

Definition isGetTools (ev : Event) : bool :=
  match ev with GetTools => true | _ => false end.

Definition isAnalyze (ev : Event) : bool :=
  match ev with Analyze _ => true | _ => false end.

Definition isCleanup (ev : Event) : bool :=
  match ev with Cleanup => true | _ => false end.

Definition isShutdownServers (ev : Event) : bool :=
  match ev with ShutdownServers => true | _ => false end.

(** Writes to the error stream and process exits. *)
Definition isErrorReport (ev : Event) : bool :=
  match ev with ConsoleError _ | ProcessExit _ => true | _ => false end.

Definition times (p : Event -> bool) (tr : list Event) : nat :=
  length (filter p tr).

(** Counting by recursion on the sequence, the way the summary is worded. *)
Fixpoint countRules (p : BusinessRule -> bool) (rules : list BusinessRule) : nat :=
  match rules with
  | [] => 0%nat
  | rule :: rest => ((if p rule then 1 else 0) + countRules p rest)%nat
  end.

Definition isHighPriority (rule : BusinessRule) : bool :=
  String.eqb (priority rule) "high".

(** Two options objects that differ at most in [llmMaxTokens]. *)
Definition sameButMaxTokens (a b : CLIOptions) : Prop :=
  directory a = directory b /\ output a = output b /\
  llmBaseUrl a = llmBaseUrl b /\ llmApiKey a = llmApiKey b /\
  llmModel a = llmModel b /\ format a = format b /\
  verbose a = verbose b /\ llmMaxSteps a = llmMaxSteps b.

(** ** Sample collaborators and inputs *)

Module Sample.

Import KhodkarCLI.

(** Modelled from the spec: [LLMConfigSchema], declared in [types] and not
    part of this file.  The spec gives the ranges it validates: [maxSteps]
    10-500 and, when present, [maxTokens] 1000-32000. *)
Definition LLMConfigSchema (cfg : LLMConfig) : Exn + unit :=
  let stepsOk :=
    match maxSteps cfg with
    | JS.Num n => (10 <=? n) && (n <=? 500)
    | JS.NaN => false
    | JS.Infinity _ => false
    end in
  let tokensOk :=
    match maxTokens cfg with
    | None => true
    | Some (JS.Num n) => (1000 <=? n) && (n <=? 32000)
    | Some JS.NaN => false
    | Some (JS.Infinity _) => false
    end in
  if stepsOk && tokensOk then inr tt else inl (Error "maxSteps out of range").

(** An options schema that accepts every options object as it is. *)
Definition acceptOptions (raw : CLIOptions) : Exn + CLIOptions := inr raw.

Definition rejectOptions (raw : CLIOptions) : Exn + CLIOptions :=
  inl (Error "Required").

Definition catalog : list Tool :=
  [ {| tool_name := "read_file"; tool_description := "Read a file" |};
    {| tool_name := "search"; tool_description := "Search the codebase" |} ].

Definition rules : list BusinessRule :=
  [ {| id := "r1"; title := "Refund window"; description := "30 days";
       category := "billing"; priority := "high"; userFacing := true |};
    {| id := "r2"; title := "Retry policy"; description := "3 attempts";
       category := "internal"; priority := "low"; userFacing := false |};
    {| id := "r3"; title := "Password rule"; description := "8 characters";
       category := "account"; priority := "high"; userFacing := false |} ].

(** Every collaborator answers. *)
Definition healthy : World :=
  {| CLIOptionsSchema_parse := acceptOptions;
     LLMConfigSchema_parse := LLMConfigSchema;
     initializeServers := fun _ => inr tt;
     getTools := fun _ => inr catalog;
     analyze := fun _ _ _ => inr rules;
     formatAndSave := fun _ _ _ _ => inr tt;
     cleanup := fun _ => inr tt;
     shutdownServers := fun _ => inr tt;
     toISOString := fun _ => "2025-01-01T00:00:00.000Z" |}.

Definition serverDown : Exn :=
  MCPServerError "connection refused" (Some "filesystem").

(** The tool server cannot be reached. *)
Definition mcpDown : World :=
  {| CLIOptionsSchema_parse := acceptOptions;
     LLMConfigSchema_parse := LLMConfigSchema;
     initializeServers := fun _ => inl serverDown;
     getTools := fun _ => inr catalog;
     analyze := fun _ _ _ => inr rules;
     formatAndSave := fun _ _ _ _ => inr tt;
     cleanup := fun _ => inr tt;
     shutdownServers := fun _ => inr tt;
     toISOString := fun _ => "2025-01-01T00:00:00.000Z" |}.

Definition llmFailure : Exn :=
  LLMAnalysisError "401 Unauthorized" None.

(** The model call fails. *)
Definition llmDown : World :=
  {| CLIOptionsSchema_parse := acceptOptions;
     LLMConfigSchema_parse := LLMConfigSchema;
     initializeServers := fun _ => inr tt;
     getTools := fun _ => inr catalog;
     analyze := fun _ _ _ => inl llmFailure;
     formatAndSave := fun _ _ _ _ => inr tt;
     cleanup := fun _ => inr tt;
     shutdownServers := fun _ => inr tt;
     toISOString := fun _ => "2025-01-01T00:00:00.000Z" |}.

(** The options schema rejects the options object. *)
Definition strictOptions : World :=
  {| CLIOptionsSchema_parse := rejectOptions;
     LLMConfigSchema_parse := LLMConfigSchema;
     initializeServers := fun _ => inr tt;
     getTools := fun _ => inr catalog;
     analyze := fun _ _ _ => inr rules;
     formatAndSave := fun _ _ _ _ => inr tt;
     cleanup := fun _ => inr tt;
     shutdownServers := fun _ => inr tt;
     toISOString := fun _ => "2025-01-01T00:00:00.000Z" |}.

(** [khodkar analyze -d ./app -o rules.md --llm-base-url ... --llm-api-key
    ... --llm-model gpt-4], with the optional flags as given. *)
Definition argv (fmt steps tokens : option string) : AnalyzeArgs :=
  {| arg_directory := "./app";
     arg_output := "rules.md";
     arg_llm_base_url := "https://api.openai.com/v1";
     arg_llm_api_key := "sk-test";
     arg_llm_model := "gpt-4";
     arg_format := fmt;
     arg_verbose := false;
     arg_llm_max_tokens := tokens;
     arg_llm_max_steps := steps |}.

Definition plainArgv : AnalyzeArgs := argv None None None.

Definition config (steps : Z) : LLMConfig :=
  {| baseUrl := "https://api.openai.com/v1";
     apiKey := "sk-test";
     model := "gpt-4";
     maxSteps := JS.Num steps;
     maxTokens := None |}.

Definition result : AnalysisResult :=
  {| analysisDate := "2025-01-01T00:00:00.000Z";
     businessRules := rules;
     summary := {| totalRules := 3; highPriorityRules := 2; userFacingRules := 1 |} |}.

(** The calls of a run in which nothing fails, without [--verbose]. *)
Definition successTrace (cfg : LLMConfig) (fmt : string) : list Event :=
  [ NewLLMProcessor cfg;
    NewProgressTracker false true;
    ProgressStart "Initializing analysis...";
    ProgressUpdatePhase "scanning" "Initializing MCP servers...";
    InitializeServers;
    ProgressUpdatePhase "analyzing" "Analyzing codebase with LLM...";
    GetTools;
    Analyze catalog;
    ProgressUpdatePhase "formatting" "Formatting output...";
    NewOutputFormatter true true true true;
    FormatAndSave result "rules.md" fmt;
    ProgressSucceed "Analysis complete!";
    ConsoleLog [(green, "✅ Analysis complete!")];
    ConsoleLog [(blue, "📄 Output saved to: rules.md")];
    ConsoleLog [(plain, newline); (bold, "Summary:")];
    ConsoleLog [(plain, "  • Business rules extracted: 3")];
    ConsoleLog [(plain, "  • High priority rules: 2")];
    ConsoleLog [(plain, "  • User-facing rules: 1")];
    Cleanup;
    ShutdownServers ].

End Sample.

(** ** Further readers *)

(** What may follow a decimal numeral without being read as part of it:
    nothing, or a character that is neither a decimal digit nor the [x] of a
    hexadecimal prefix ([x] and [X] have digit value 33). *)
Definition stopsNumeral (t : string) : bool :=
  match t with
  | EmptyString => true
  | String c _ =>
      match JS.digitValue c with
      | Some d => (10 <=? d) && negb (d =? 33)
      | None => true
      end
  end.

(** The collaborator calls of a run, by kind. *)
Inductive Call : Type :=
| ToInitialize | ToGetTools | ToAnalyze | ToSave | ToCleanup | ToShutdown.

Definition callOf (ev : Event) : option Call :=
  match ev with
  | InitializeServers => Some ToInitialize
  | GetTools => Some ToGetTools
  | Analyze _ => Some ToAnalyze
  | FormatAndSave _ _ _ => Some ToSave
  | Cleanup => Some ToCleanup
  | ShutdownServers => Some ToShutdown
  | _ => None
  end.

Fixpoint calls (tr : list Event) : list Call :=
  match tr with
  | [] => []
  | ev :: rest =>
      match callOf ev with
      | Some c => c :: calls rest
      | None => calls rest
      end
  end.

(** The calls of [handleAnalyzeCommand] in the order of its text. *)
Definition lifecycle : list Call :=
  [ToInitialize; ToGetTools; ToAnalyze; ToSave; ToCleanup; ToShutdown].

(** The error a collaborator call is answered with, if it is answered with
    one; [cfg] is the configuration the processor was built with and [h] the
    history at the call. *)
Definition failureOf (w : World) (cfg : LLMConfig) (ev : Event) (h : History)
    : option Exn :=
  let thrown {A} (r : Exn + A) : option Exn :=
    match r with inl e => Some e | inr _ => None end in
  match ev with
  | InitializeServers => thrown (initializeServers w h)
  | GetTools => thrown (getTools w h)
  | Analyze tools => thrown (analyze w cfg tools h)
  | FormatAndSave r p f => thrown (formatAndSave w r p f h)
  | Cleanup => thrown (cleanup w h)
  | ShutdownServers => thrown (shutdownServers w h)
  | _ => None
  end.

Definition isConsoleLog (ev : Event) : bool :=
  match ev with ConsoleLog _ => true | _ => false end.

Definition isConsoleError (ev : Event) : bool :=
  match ev with ConsoleError _ => true | _ => false end.

Definition isProgressFail (ev : Event) : bool :=
  match ev with ProgressFail _ => true | _ => false end.

Definition isSave (ev : Event) : bool :=
  match ev with FormatAndSave _ _ _ => true | _ => false end.

(** The calls before the first one that satisfies [p]. *)
Fixpoint before (p : Event -> bool) (tr : list Event) : list Event :=
  match tr with
  | [] => []
  | ev :: rest => if p ev then [] else ev :: before p rest
  end.

(** The detail [handleError] looks for in an error. *)
Definition detailOf (e : Exn) : option string :=
  match e with
  | LLMAnalysisError _ fp => fp
  | MCPServerError _ sn => sn
  | _ => None
  end.


(** Two options objects that differ at most in [directory]. *)
Definition sameButDirectory (a b : CLIOptions) : Prop :=
  output a = output b /\
  llmBaseUrl a = llmBaseUrl b /\ llmApiKey a = llmApiKey b /\
  llmModel a = llmModel b /\ format a = format b /\
  verbose a = verbose b /\ llmMaxTokens a = llmMaxTokens b /\
  llmMaxSteps a = llmMaxSteps b.

(** The lines of the [--verbose] banner, from the three option values they
    show. *)
Definition bannerLines (dir out fmt : string) : list Text :=
  [ [(blue, "🔍 Starting business rules analysis...")];
    [(gray, "Directory: " ++ dir)];
    [(gray, "Output: " ++ out)];
    [(gray, "Format: " ++ fmt)] ].

(** The lines written once the analysis has returned, from the output path
    and the three counts they show. *)
Definition reportLines (out : string) (total high facing : nat) : list Text :=
  [ [(green, "✓ Extracted " ++ JS.showNat total ++ " business rules")];
    [(green, "✅ Analysis complete!")];
    [(blue, "📄 Output saved to: " ++ out)];
    [(plain, KhodkarCLI.newline); (bold, "Summary:")];
    [(plain, "  • Business rules extracted: " ++ JS.showNat total)];
    [(plain, "  • High priority rules: " ++ JS.showNat high)];
    [(plain, "  • User-facing rules: " ++ JS.showNat facing)] ].

(** More collaborators for the sample runs. *)
Module Faulty.

Definition diskFull : Exn := Error "ENOSPC: no space left on device".

(** The output cannot be written. *)
Definition saveDown : World :=
  {| CLIOptionsSchema_parse := Sample.acceptOptions;
     LLMConfigSchema_parse := Sample.LLMConfigSchema;
     initializeServers := fun _ => inr tt;
     getTools := fun _ => inr Sample.catalog;
     analyze := fun _ _ _ => inr Sample.rules;
     formatAndSave := fun _ _ _ _ => inl diskFull;
     cleanup := fun _ => inr tt;
     shutdownServers := fun _ => inr tt;
     toISOString := fun _ => "2025-01-01T00:00:00.000Z" |}.

Definition hangUp : Exn := Error "socket hang up".

(** The processor cannot be cleaned up. *)
Definition cleanupDown : World :=
  {| CLIOptionsSchema_parse := Sample.acceptOptions;
     LLMConfigSchema_parse := Sample.LLMConfigSchema;
     initializeServers := fun _ => inr tt;
     getTools := fun _ => inr Sample.catalog;
     analyze := fun _ _ _ => inr Sample.rules;
     formatAndSave := fun _ _ _ _ => inr tt;
     cleanup := fun _ => inl hangUp;
     shutdownServers := fun _ => inr tt;
     toISOString := fun _ => "2025-01-01T00:00:00.000Z" |}.

End Faulty.

(** * Properties *)

Import KhodkarCLI.

Import Paths.

Local Open Scope list_scope.

(** ** Tactics *)

(** One case per way a collaborator can answer. *)
Ltac next_answer :=
  match goal with
  | |- context [CLIOptionsSchema_parse ?w ?r] =>
      destruct (CLIOptionsSchema_parse w r) as [?e|?options] eqn:?Hoptions
  | |- context [LLMConfigSchema_parse ?w ?c] =>
      destruct (LLMConfigSchema_parse w c) as [?e|[]] eqn:?Hconfig
  | |- context [verbose ?o] =>
      destruct (verbose o) eqn:?Hverbose
  | |- context [initializeServers ?w ?h] =>
      destruct (initializeServers w h) as [?e|[]] eqn:?Hinit
  | |- context [getTools ?w ?h] =>
      destruct (getTools w h) as [?e|?tools] eqn:?Htools
  | |- context [analyze ?w ?c ?t ?h] =>
      destruct (analyze w c t h) as [?e|?rules] eqn:?Hrules
  | |- context [formatAndSave ?w ?r ?p ?f ?h] =>
      destruct (formatAndSave w r p f h) as [?e|[]] eqn:?Hsave
  | |- context [cleanup ?w ?h] =>
      destruct (cleanup w h) as [?e|[]] eqn:?Hcleanup
  | |- context [shutdownServers ?w ?h] =>
      destruct (shutdownServers w h) as [?e|[]] eqn:?Hshutdown
  end.

Ltac unfold_run :=
  unfold execute, run, handleAnalyzeCommand, validateOptions,
    bind, tryCatch, pure, call, emit, when, ret, throw, ofSum.

Ltac unfold_paths :=
  unfold toCleanup, saveCall, report, toSave,
    toResult, extracted, toAnalysis, toCatalog, toDiscovery, banner.

(** The trace of a path, call by call, once [verbose] is known. *)
Ltac path_trace Hv :=
  unfold saved, analysed, configured; unfold_paths;
  unfold resultOf; unfold_paths; rewrite ?Hv;
  cbv beta iota delta [List.rev Datatypes.app summary]; try reflexivity.

(** ** Runs on the sample inputs *)

Example parseInt_decimal : JS.parseInt "42" = JS.Num 42.
Proof. reflexivity. Qed.

Example parseInt_prefix : JS.parseInt "  12px" = JS.Num 12.
Proof. reflexivity. Qed.

Example parseInt_hex : JS.parseInt "0x1F" = JS.Num 31.
Proof. reflexivity. Qed.

Example parseInt_negative : JS.parseInt "-7" = JS.Num (-7).
Proof. reflexivity. Qed.

Example parseInt_zero : JS.parseInt "0" = JS.Num 0.
Proof. reflexivity. Qed.

Example parseInt_not_a_number : JS.parseInt "abc" = JS.NaN.
Proof. reflexivity. Qed.

Example parseInt_empty : JS.parseInt "" = JS.NaN.
Proof. reflexivity. Qed.

(** U+00A0 before the digits is skipped like a space. *)
Example parseInt_no_break_space :
  JS.parseInt (String (ascii_of_nat 194) (String (ascii_of_nat 160) "42"))
  = JS.Num 42.
Proof. reflexivity. Qed.

(** U+FEFF and U+3000 as well. *)
Example parseInt_wide_space :
  JS.parseInt (String (ascii_of_nat 239) (String (ascii_of_nat 187)
                (String (ascii_of_nat 191)
                  (String (ascii_of_nat 227) (String (ascii_of_nat 128)
                    (String (ascii_of_nat 128) "7"))))))
  = JS.Num 7.
Proof. reflexivity. Qed.

Example parseInt_rounds : JS.parseInt "9007199254740993" = JS.Num 9007199254740992.
Proof. vm_compute. reflexivity. Qed.

Example toDouble_overflow : JS.toDouble (10 ^ 400) = JS.Infinity false.
Proof. vm_compute. reflexivity. Qed.

Example toDouble_largest :
  JS.toDouble (2 ^ 1024 - 2 ^ 970 - 1) = JS.Num ((2 ^ 53 - 1) * 2 ^ 971).
Proof. vm_compute. reflexivity. Qed.

Example run_healthy :
  execute Sample.healthy Sample.plainArgv
  = (Sample.successTrace (Sample.config 50) "markdown", Returned tt).
Proof. vm_compute. reflexivity. Qed.

Example run_healthy_json_20 :
  execute Sample.healthy (Sample.argv (Some "json") (Some "20") None)
  = (Sample.successTrace (Sample.config 20) "json", Returned tt).
Proof. vm_compute. reflexivity. Qed.

Example run_options_rejected :
  execute Sample.strictOptions Sample.plainArgv
  = ([], Threw (Error "Invalid options: Required")).
Proof. vm_compute. reflexivity. Qed.

Example run_steps_out_of_range :
  execute Sample.healthy (Sample.argv None (Some "5") None)
  = ([], Threw (Error "LLM Configuration Error: maxSteps out of range")).
Proof. vm_compute. reflexivity. Qed.

(** ** Following a run *)

Lemma Path_trace (w : World) (raw : CLIOptions) (tr tr' : list Event)
    (out : Outcome unit) :
  Path w raw tr out -> tr = tr' -> Path w raw tr' out.
Proof. intros H <-. exact H. Qed.

(** A path named by its constructor: the answers are the ones in the context
    and the trace is the one of the goal. *)
Ltac by_path p Hv :=
  eapply Path_trace; [apply p|]; path_trace Hv; repeat split; assumption.

(** Every run of [handleAnalyzeCommand] from an empty history takes one of
    the nine paths. *)
Lemma handleAnalyzeCommand_path (w : World) (raw : CLIOptions) :
  Path w raw (List.rev (fst (handleAnalyzeCommand w raw [])))
             (snd (handleAnalyzeCommand w raw [])).
Proof.
  unfold_run. repeat next_answer;
    cbv beta iota delta [fst snd List.rev Datatypes.app summary] in *.
  - apply OptionsRejected; assumption.
  - apply (ConfigRejected w raw options e); assumption.
  - by_path (DiscoveryFailed w raw options e) Hverbose.
  - by_path (CatalogFailed w raw options e) Hverbose.
  - by_path (AnalysisFailed w raw options tools e) Hverbose.
  - by_path (SaveFailed w raw options tools rules e) Hverbose.
  - by_path (CleanupFailed w raw options tools rules e) Hverbose.
  - by_path (ShutdownFailed w raw options tools rules e) Hverbose.
  - by_path (Succeeded w raw options tools rules) Hverbose.
  - by_path (DiscoveryFailed w raw options e) Hverbose.
  - by_path (CatalogFailed w raw options e) Hverbose.
  - by_path (AnalysisFailed w raw options tools e) Hverbose.
  - by_path (SaveFailed w raw options tools rules e) Hverbose.
  - by_path (CleanupFailed w raw options tools rules e) Hverbose.
  - by_path (ShutdownFailed w raw options tools rules e) Hverbose.
  - by_path (Succeeded w raw options tools rules) Hverbose.
Qed.

Lemma execute_path (w : World) (argv : AnalyzeArgs) (tr : list Event)
    (out : Outcome unit) :
  execute w argv = (tr, out) -> Path w (setupCommands argv) tr out.
Proof.
  unfold execute, run. intros H.
  pose proof (handleAnalyzeCommand_path w (setupCommands argv)) as P.
  destruct (handleAnalyzeCommand w (setupCommands argv) []) as [h r].
  injection H as <- <-. exact P.
Qed.

(** The paths with their traces written out call by call. *)
Ltac paths H :=
  apply execute_path in H; destruct H;
  unfold saved, analysed, configured in *;
  unfold toCleanup, saveCall, report, toSave,
    toResult, extracted, toAnalysis, toCatalog, toDiscovery, banner in *;
  repeat match goal with
         | |- context [verbose ?o] =>
             let Hv := fresh "Hverbose" in
             (destruct (verbose o) eqn:Hv; rewrite ?Hv in *)
         end;
  cbn [Datatypes.app List.rev] in *.

(** The members of a trace that is known call by call. *)
Ltac members H :=
  cbn [List.In] in H;
  repeat match type of H with
         | _ \/ _ => destruct H as [H|H]; [try discriminate H|]
         | False => destruct H
         end.

Lemma split_cons {A} (pre post l : list A) (x a : A) :
  pre ++ x :: post = a :: l ->
  (pre = [] /\ x = a /\ post = l) \/
  (exists pre', pre = a :: pre' /\ pre' ++ x :: post = l).
Proof.
  destruct pre as [|b pre]; simpl; intros H; injection H as H1 H2; subst.
  - left; auto.
  - right; eauto.
Qed.

(** Where a given call can sit in a trace that is known call by call. *)
Ltac locate H :=
  repeat match type of H with
         | _ ++ _ :: _ = _ :: _ =>
             apply split_cons in H;
             destruct H as [(-> & H & ->) | (? & -> & H)];
             [ try discriminate H | ]
         | _ ++ _ :: _ = [] =>
             symmetry in H; apply app_cons_not_nil in H; destruct H
         end.

Lemma length_filter_count (p : BusinessRule -> bool) (rules : list BusinessRule) :
  length (filter p rules) = countRules p rules.
Proof.
  induction rules as [|rule rest IH]; simpl.
  - reflexivity.
  - destruct (p rule); simpl; rewrite IH; reflexivity.
Qed.

(** The configuration every [LLMProcessor] of a run is built with. *)
Lemma processor_config (w : World) (argv : AnalyzeArgs) (tr : list Event)
    (out : Outcome unit) (cfg : LLMConfig) :
  execute w argv = (tr, out) ->
  In (NewLLMProcessor cfg) tr ->
  exists o,
    CLIOptionsSchema_parse w (setupCommands argv) = inr o /\
    cfg = llmConfigOf o.
Proof.
  intros H. paths H; intros Hin; members Hin.
  all: injection Hin as <-; eexists; split; [|reflexivity].
  all: tauto.
Qed.

(** A configuration that passes validation reaches the processor. *)
Lemma processor_created (w : World) (argv : AnalyzeArgs) (tr : list Event)
    (out : Outcome unit) (o : CLIOptions) :
  execute w argv = (tr, out) ->
  CLIOptionsSchema_parse w (setupCommands argv) = inr o ->
  LLMConfigSchema_parse w (llmConfigOf o) = inr tt ->
  In (NewLLMProcessor (llmConfigOf o)) tr.
Proof.
  intros H. paths H; intros Ho Hc.
  all: try congruence.
  all: replace o0 with o by (intuition congruence); left; reflexivity.
Qed.

(** What the formatter is called with. *)
Lemma save_arguments (w : World) (argv : AnalyzeArgs) (tr : list Event)
    (out : Outcome unit) (r : AnalysisResult) (p f : string) :
  execute w argv = (tr, out) ->
  In (FormatAndSave r p f) tr ->
  exists o tools rules,
    analysed w (setupCommands argv) o tools rules /\
    r = resultOf w o tools rules /\ p = output o /\ f = format o.
Proof.
  intros H. paths H; intros Hin; members Hin.
  all: injection Hin as <- <- <-.
  all: exists o, tools, rules; unfold analysed, configured.
  all: unfold_paths; rewrite ?Hverbose.
  all: cbn [Datatypes.app List.rev]; tauto.
Qed.

(** Nothing a run does writes to the error stream or ends the process. *)
Lemma run_reports_nothing (w : World) (argv : AnalyzeArgs) (tr : list Event)
    (out : Outcome unit) :
  execute w argv = (tr, out) ->
  times isErrorReport tr = 0%nat /\ forall code, out <> Exited code.
Proof.
  intros H. paths H; split; try reflexivity; discriminate.
Qed.

(** [handleError] is where a failure would be reported. *)
Lemma handleError_exits (error : Exn) (h : History) :
  snd (handleError error h) = Exited 1 /\
  (times isErrorReport (fst (handleError error h)) >= 2 + times isErrorReport h)%nat.
Proof.
  unfold handleError, bind, emit, ret, processExit, times.
  destruct error as [m fp|m sn|m|v];
    [destruct (detailGiven fp)|destruct (detailGiven sn)| |];
    cbn [fst snd filter isErrorReport length]; split; try reflexivity; lia.
Qed.

Example handleError_server_down :
  handleError Sample.serverDown []
  = ([ ProcessExit 1;
       ConsoleError [(gray, "Server: filesystem")];
       ConsoleError [(red, "MCP server error: connection refused")] ],
     Exited 1).
Proof. reflexivity. Qed.

(** The two release calls are made after a successful save and nowhere
    else: a run that fails either made neither, or failed in one of them. *)
Lemma release_paths (w : World) (argv : AnalyzeArgs) (tr : list Event)
    (out : Outcome unit) :
  execute w argv = (tr, out) ->
  (out = Returned tt ->
   times isCleanup tr = 1%nat /\ times isShutdownServers tr = 1%nat) /\
  (forall e, out = Threw e ->
   (times isCleanup tr = 0%nat /\ times isShutdownServers tr = 0%nat) \/
   (exists pre, tr = pre ++ [Cleanup] /\ cleanup w (List.rev pre) = inl e) \/
   (exists pre, tr = pre ++ [Cleanup; ShutdownServers] /\
                shutdownServers w (List.rev (pre ++ [Cleanup])) = inl e)).
Proof.
  intros H. paths H; (split; [try discriminate; split; reflexivity|]).
  all: intros e' He'; try discriminate He'; injection He' as <-.
  all: try (left; split; reflexivity).
  all: right.
  all: match goal with
       | Hc : cleanup _ _ = inl _ |- _ =>
           left;
           match goal with
           | |- exists pre, ?L = _ /\ _ => exists (removelast L)
           end
       | Hs : shutdownServers _ _ = inl _ |- _ =>
           right;
           match goal with
           | |- exists pre, ?L = _ /\ _ => exists (removelast (removelast L))
           end
       end.
  all: cbn [removelast Datatypes.app List.rev]; split;
    [reflexivity|assumption].
Qed.

(** ** The claims *)

(** C1 (the code does not do this).  A run whose tool-server initialisation
    fails ends with the error thrown out of [run]: nothing was written to the
    error stream and [process.exit] was not called. *)
Theorem failed_run_goes_unreported :
  exists tr,
    execute Sample.mcpDown Sample.plainArgv = (tr, Threw Sample.serverDown) /\
    times isErrorReport tr = 0%nat /\
    In InitializeServers tr.
Proof.
  eexists. split; [vm_compute; reflexivity|].
  split; [reflexivity|]. cbn. tauto.
Qed.

(** C2 (the code does not do this).  A run whose model call fails ends
    without [cleanup] and without [shutdownServers], although the servers
    had been initialised. *)
Theorem failed_analysis_releases_nothing :
  exists tr,
    execute Sample.llmDown Sample.plainArgv = (tr, Threw Sample.llmFailure) /\
    In InitializeServers tr /\
    times isCleanup tr = 0%nat /\
    times isShutdownServers tr = 0%nat.
Proof.
  eexists. split; [vm_compute; reflexivity|].
  split; [cbn; tauto|]. split; reflexivity.
Qed.

(** C3.  The result handed to the formatter carries the sequence the analysis
    returned, and its summary is counted from that sequence: the total is its
    length, the high-priority count is the number of rules whose priority is
    ['high'], the user-facing count is the number of rules whose [userFacing]
    is true. *)
Theorem summary_recomputed (w : World) (argv : AnalyzeArgs) (tr : list Event)
    (out : Outcome unit) (r : AnalysisResult) (p f : string) :
  execute w argv = (tr, out) ->
  In (FormatAndSave r p f) tr ->
  (exists cfg tools h, analyze w cfg tools h = inr (businessRules r)) /\
  totalRules (summary r) = length (businessRules r) /\
  highPriorityRules (summary r) = countRules isHighPriority (businessRules r) /\
  userFacingRules (summary r) = countRules userFacing (businessRules r).
Proof.
  intros H Hin.
  destruct (save_arguments _ _ _ _ _ _ _ H Hin)
    as (o & tools & rules & Han & -> & _ & _).
  destruct Han as (_ & _ & _ & Hrules).
  cbn [resultOf businessRules summary summaryOf totalRules highPriorityRules
       userFacingRules].
  split; [eauto|]. split; [reflexivity|].
  split; apply length_filter_count.
Qed.

Lemma summary_recomputed_witness :
  execute Sample.healthy Sample.plainArgv
  = (Sample.successTrace (Sample.config 50) "markdown", Returned tt) /\
  In (FormatAndSave Sample.result "rules.md" "markdown")
     (Sample.successTrace (Sample.config 50) "markdown") /\
  totalRules (summary Sample.result) = 3%nat /\
  highPriorityRules (summary Sample.result)
  = countRules isHighPriority Sample.rules /\
  userFacingRules (summary Sample.result)
  = countRules userFacing Sample.rules.
Proof.
  assert (Hrun : execute Sample.healthy Sample.plainArgv
                 = (Sample.successTrace (Sample.config 50) "markdown", Returned tt))
    by (vm_compute; reflexivity).
  assert (Hin : In (FormatAndSave Sample.result "rules.md" "markdown")
                   (Sample.successTrace (Sample.config 50) "markdown"))
    by (do 10 right; left; reflexivity).
  split; [exact Hrun|]. split; [exact Hin|].
  exact (proj2 (summary_recomputed _ _ _ _ _ _ _ Hrun Hin)).
Defined.

(** C4 (the code does not do this).  A run whose [initializeServers] throws
    an [MCPServerError] that names the server stops there, before [getTools]
    and [analyze], and throws that error; but the error is not reported:
    nothing is written to the error stream.  The report of the discovery
    error with the server's name is what [handleError] makes of that error,
    and no run calls [handleError]. *)
Theorem discovery_failure_goes_unreported :
  exists tr,
    execute Sample.mcpDown Sample.plainArgv = (tr, Threw Sample.serverDown) /\
    times isGetTools tr = 0%nat /\
    times isAnalyze tr = 0%nat /\
    times isErrorReport tr = 0%nat /\
    handleError Sample.serverDown (List.rev tr)
    = (ProcessExit 1
       :: ConsoleError [(gray, "Server: filesystem")]
       :: ConsoleError [(red, "MCP server error: connection refused")]
       :: List.rev tr,
       Exited 1).
Proof.
  eexists. split; [vm_compute; reflexivity|].
  repeat split; reflexivity.
Qed.

(** C5.  When [--llm-max-steps] is not given, the options object has no
    [llmMaxSteps]; if validation hands that on, the configuration is built
    with [maxSteps] 50, and it is the configuration the processor gets. *)
Theorem default_step_budget (w : World) (argv : AnalyzeArgs)
    (options : CLIOptions) :
  arg_llm_max_steps argv = None ->
  CLIOptionsSchema_parse w (setupCommands argv) = inr options ->
  llmMaxSteps options = llmMaxSteps (setupCommands argv) ->
  maxSteps (llmConfigOf options) = JS.Num 50 /\
  forall tr out,
    execute w argv = (tr, out) ->
    (forall cfg, In (NewLLMProcessor cfg) tr -> maxSteps cfg = JS.Num 50) /\
    (LLMConfigSchema_parse w (llmConfigOf options) = inr tt ->
     In (NewLLMProcessor (llmConfigOf options)) tr).
Proof.
  intros Hnone Hoptions Hsame.
  assert (Hsteps : maxSteps (llmConfigOf options) = JS.Num 50).
  { unfold llmConfigOf; cbn [maxSteps]. rewrite Hsame.
    unfold setupCommands; cbn [llmMaxSteps]. rewrite Hnone. reflexivity. }
  split; [exact Hsteps|].
  intros tr out Hrun. split.
  - intros cfg Hin.
    destruct (processor_config _ _ _ _ _ Hrun Hin) as (o & Ho & ->).
    rewrite Hoptions in Ho. injection Ho as <-. exact Hsteps.
  - intros Hconfig. exact (processor_created _ _ _ _ _ Hrun Hoptions Hconfig).
Qed.

Lemma default_step_budget_witness :
  arg_llm_max_steps Sample.plainArgv = None /\
  maxSteps (llmConfigOf (setupCommands Sample.plainArgv)) = JS.Num 50 /\
  In (NewLLMProcessor (llmConfigOf (setupCommands Sample.plainArgv)))
     (Sample.successTrace (Sample.config 50) "markdown").
Proof.
  destruct (default_step_budget Sample.healthy Sample.plainArgv
              (setupCommands Sample.plainArgv) eq_refl eq_refl eq_refl)
    as (Hsteps & Hrun).
  split; [reflexivity|]. split; [exact Hsteps|].
  refine (proj2 (Hrun _ (Returned tt) _) eq_refl).
  vm_compute; reflexivity.
Defined.

(** C6.  When the configuration built from the validated options fails
    [LLMConfigSchema], the command throws an [Error] whose message begins
    with [LLM Configuration Error:], and it has made no call at all by then:
    no server was initialised and no analysis was started. *)
Theorem config_rejected_first (w : World) (argv : AnalyzeArgs)
    (options : CLIOptions) (e : Exn) :
  CLIOptionsSchema_parse w (setupCommands argv) = inr options ->
  LLMConfigSchema_parse w (llmConfigOf options) = inl e ->
  exists msg,
    execute w argv = ([], Threw (Error msg)) /\
    String.prefix "LLM Configuration Error:" msg = true.
Proof.
  intros Hoptions Hconfig.
  exists ("LLM Configuration Error: " ++ messageOr "Invalid LLM configuration" e)%string.
  split.
  - unfold_run. rewrite Hoptions, Hconfig. reflexivity.
  - reflexivity.
Qed.

Lemma config_rejected_first_witness :
  maxSteps (llmConfigOf (setupCommands (Sample.argv None (Some "5") None)))
  = JS.Num 5 /\
  exists msg,
    execute Sample.healthy (Sample.argv None (Some "5") None)
    = ([], Threw (Error msg)) /\
    String.prefix "LLM Configuration Error:" msg = true.
Proof.
  split; [reflexivity|].
  exact (config_rejected_first Sample.healthy (Sample.argv None (Some "5") None)
           (setupCommands (Sample.argv None (Some "5") None))
           (Error "maxSteps out of range") eq_refl eq_refl).
Defined.

(** C7.  A run calls [getTools] at most once, and exactly once when it
    succeeds; a call to [analyze] comes directly after that one call and is
    given the catalog it returned; [getTools] is not called again after
    it. *)
Theorem tools_discovered_once (w : World) (argv : AnalyzeArgs)
    (tr : list Event) (out : Outcome unit) :
  execute w argv = (tr, out) ->
  (times isGetTools tr <= 1)%nat /\
  (out = Returned tt -> times isGetTools tr = 1%nat) /\
  forall pre tools post,
    tr = pre ++ Analyze tools :: post ->
    times isGetTools tr = 1%nat /\
    exists pre',
      pre = pre' ++ [GetTools] /\
      getTools w (List.rev pre') = inr tools /\
      times isGetTools pre' = 0%nat /\
      times isGetTools post = 0%nat.
Proof.
  intros H. paths H.
  all: split; [cbn; lia|].
  all: split; [try discriminate; reflexivity|].
  all: intros pre tools' post Htr; symmetry in Htr; locate Htr.
  all: injection Htr as <-.
  all: split; [reflexivity|].
  all: match goal with
       | |- exists p, ?L = _ /\ _ => exists (removelast L)
       end.
  all: cbn [removelast Datatypes.app List.rev].
  all: split; [reflexivity|]; split; [tauto|]; split; reflexivity.
Qed.

Lemma tools_discovered_once_witness :
  times isGetTools (Sample.successTrace (Sample.config 50) "markdown") = 1%nat /\
  getTools Sample.healthy [] = inr Sample.catalog.
Proof.
  destruct (tools_discovered_once Sample.healthy Sample.plainArgv
              (Sample.successTrace (Sample.config 50) "markdown") (Returned tt))
    as (_ & Honce & _).
  - vm_compute; reflexivity.
  - split; [exact (Honce eq_refl)|reflexivity].
Defined.

(** C8.  Two validated options objects that differ only in [llmMaxTokens]
    give the same configuration, in which [maxTokens] is not set; the whole
    run is the same for both. *)
Theorem max_tokens_ignored (w : World) (raw1 raw2 o1 o2 : CLIOptions) :
  CLIOptionsSchema_parse w raw1 = inr o1 ->
  CLIOptionsSchema_parse w raw2 = inr o2 ->
  sameButMaxTokens o1 o2 ->
  llmConfigOf o1 = llmConfigOf o2 /\
  maxTokens (llmConfigOf o1) = None /\
  forall h, handleAnalyzeCommand w raw1 h = handleAnalyzeCommand w raw2 h.
Proof.
  intros H1 H2 Hsame.
  destruct o1 as [d1 u1 b1 k1 m1 f1 v1 t1 s1], o2 as [d2 u2 b2 k2 m2 f2 v2 t2 s2].
  unfold sameButMaxTokens in Hsame; cbn in Hsame.
  destruct Hsame as (<- & <- & <- & <- & <- & <- & <- & <-).
  split; [reflexivity|]. split; [reflexivity|].
  intros h. unfold handleAnalyzeCommand, validateOptions, bind, tryCatch, pure.
  rewrite H1, H2. reflexivity.
Qed.

Lemma max_tokens_ignored_witness :
  llmMaxTokens (setupCommands (Sample.argv None None (Some "2000")))
  <> llmMaxTokens (setupCommands (Sample.argv None None (Some "8000"))) /\
  execute Sample.healthy (Sample.argv None None (Some "2000"))
  = execute Sample.healthy (Sample.argv None None (Some "8000")).
Proof.
  split; [discriminate|].
  destruct (max_tokens_ignored Sample.healthy
              (setupCommands (Sample.argv None None (Some "2000")))
              (setupCommands (Sample.argv None None (Some "8000")))
              _ _ eq_refl eq_refl)
    as (_ & _ & Hrun).
  - unfold sameButMaxTokens; repeat split.
  - unfold execute, run. rewrite (Hrun []). reflexivity.
Defined.



(** With U+00A0 before the digits the value is 42, not falsy, and is used. *)
Example spaced_step_budget_used :
  execute Sample.healthy
    (Sample.argv None
       (Some (String (ascii_of_nat 194) (String (ascii_of_nat 160) "42"))) None)
  = (Sample.successTrace (Sample.config 42) "markdown", Returned tt).
Proof. vm_compute. reflexivity. Qed.

Example zero_step_budget_defaults :
  execute Sample.healthy (Sample.argv None (Some "0") None)
  = (Sample.successTrace (Sample.config 50) "markdown", Returned tt).
Proof. vm_compute. reflexivity. Qed.

(** C10.  When [--format] is not given, the options object has the format
    ['markdown'], and when validation hands that on, ['markdown'] is the
    format [formatAndSave] is called with. *)
Theorem default_format (w : World) (argv : AnalyzeArgs) :
  arg_format argv = None ->
  format (setupCommands argv) = "markdown"%string /\
  forall options tr out r p f,
    CLIOptionsSchema_parse w (setupCommands argv) = inr options ->
    format options = format (setupCommands argv) ->
    execute w argv = (tr, out) ->
    In (FormatAndSave r p f) tr ->
    f = "markdown"%string.
Proof.
  intros Hnone.
  assert (Hfmt : format (setupCommands argv) = "markdown"%string).
  { unfold setupCommands; cbn [format]. rewrite Hnone. reflexivity. }
  split; [exact Hfmt|].
  intros options tr out r p f Hoptions Hsame Hrun Hin.
  destruct (save_arguments _ _ _ _ _ _ _ Hrun Hin)
    as (o & tools & rules & Han & _ & _ & ->).
  destruct Han as ((Ho & _) & _).
  rewrite Hoptions in Ho. injection Ho as <-.
  rewrite Hsame. exact Hfmt.
Qed.

Lemma default_format_witness :
  arg_format Sample.plainArgv = None /\
  format (setupCommands Sample.plainArgv) = "markdown"%string /\
  In (FormatAndSave Sample.result "rules.md" "markdown")
     (fst (execute Sample.healthy Sample.plainArgv)).
Proof.
  split; [reflexivity|].
  split; [exact (proj1 (default_format Sample.healthy Sample.plainArgv eq_refl))|].
  vm_compute. do 10 right. left. reflexivity.
Defined.

(** * Further properties of the command *)

(** ** The option parser *)

Lemma parseDigits_stop (t : string) (acc : option Z) :
  stopsNumeral t = true -> JS.parseDigits 10 t acc = acc.
Proof.
  destruct t as [|c t]; [reflexivity|]. cbn [stopsNumeral JS.parseDigits].
  destruct (JS.digitValue c) as [d|]; [|reflexivity].
  intros H. apply andb_true_iff in H. destruct H as [H _].
  apply Z.leb_le in H. destruct (Z.ltb_spec d 10); [lia|reflexivity].
Qed.

Lemma parseDigits_digit (c : ascii) (rest : string) (a d : Z) :
  JS.digitValue c = Some d -> (d <? 10) = true ->
  JS.parseDigits 10 (String c rest) (Some a)
  = JS.parseDigits 10 rest (Some (10 * a + d)).
Proof. intros Hc Hd. cbn [JS.parseDigits]. rewrite Hc, Hd. reflexivity. Qed.

(** Reading the digits of a numeral accumulates its value. *)
Lemma parseDigits_numeral (d : uint) (t : string) (a : nat) :
  stopsNumeral t = true ->
  JS.parseDigits 10 (NilEmpty.string_of_uint d ++ t)%string (Some (Z.of_nat a))
  = Some (Z.of_nat (Nat.of_uint_acc d a)).
Proof.
  intros Ht. revert a.
  induction d; intros a; cbn [NilEmpty.string_of_uint String.append Nat.of_uint_acc].
  1: apply parseDigits_stop; exact Ht.
  all: rewrite Nat.tail_mul_spec.
  all: match goal with
       | |- JS.parseDigits 10 (String ?c _) _ = _ =>
           let v := eval vm_compute in (JS.digitValue c) in
           match v with
           | Some ?k => rewrite (parseDigits_digit c _ _ k eq_refl eq_refl)
           end
       end.
  all: rewrite <- IHd; do 2 f_equal; lia.
Qed.

Lemma parseInt_zero_then (t : string) :
  stopsNumeral t = true -> JS.parseInt (String "0" t) = JS.Num 0.
Proof.
  destruct t as [|c t]; [reflexivity|].
  destruct c as [[] [] [] [] [] [] [] []]; intros H;
    first [discriminate H | reflexivity].
Qed.

Lemma parseInt_numeral (d : uint) (t : string) :
  stopsNumeral t = true ->
  JS.parseInt (NilZero.string_of_uint d ++ t)%string
  = JS.toDouble (Z.of_nat (Nat.of_uint d)).
Proof.
  intros Ht. unfold Nat.of_uint.
  destruct d as [|d|d|d|d|d|d|d|d|d|d];
    cbn [NilZero.string_of_uint NilEmpty.string_of_uint String.append
         Nat.of_uint_acc].
  2: destruct d as [|d|d|d|d|d|d|d|d|d|d];
    cbn [NilZero.string_of_uint NilEmpty.string_of_uint String.append
         Nat.of_uint_acc].
  1-2: rewrite parseInt_zero_then by exact Ht; reflexivity.
  all: rewrite ?Nat.tail_mul_spec; cbn [Nat.mul Nat.add].
  all: match goal with
       | |- JS.parseInt (String ?a (String ?b ?r)) = _ =>
           let v := eval vm_compute in
                    (JS.parseDigits 10 (String a (String b "")) None) in
           match v with
           | Some ?k =>
               change (JS.parseInt (String a (String b r)))
                 with (match JS.parseDigits 10 r (Some k) with
                       | Some m => JS.toDouble (1 * m)
                       | None => JS.NaN
                       end)
           end
       | |- JS.parseInt (String ?a ?r) = _ =>
           let v := eval vm_compute in (JS.parseDigits 10 (String a "") None) in
           match v with
           | Some ?k =>
               change (JS.parseInt (String a r))
                 with (match JS.parseDigits 10 r (Some k) with
                       | Some m => JS.toDouble (1 * m)
                       | None => JS.NaN
                       end)
           end
       end.
  all: match goal with
       | |- context [JS.parseDigits 10 _ (Some ?k)] =>
           let n := eval vm_compute in (Z.to_nat k) in
           change k with (Z.of_nat n)
       end.
  all: rewrite parseDigits_numeral by exact Ht.
  all: rewrite Z.mul_1_l; reflexivity.
Qed.

(** Up to [2^53], [parseInt] reads back the decimal rendering of a number,
    whatever follows it; above, it reads the double nearest to it. *)
Lemma parseInt_showNat (n : nat) (t : string) :
  stopsNumeral t = true ->
  JS.parseInt (JS.showNat n ++ t)%string = JS.toDouble (Z.of_nat n).
Proof.
  intros Ht. unfold JS.showNat. rewrite parseInt_numeral by exact Ht.
  rewrite Unsigned.of_to. reflexivity.
Qed.

Lemma toDouble_exact (m : Z) : Z.abs m <= 2 ^ 53 -> JS.toDouble m = JS.Num m.
Proof.
  intros Hm. unfold JS.toDouble. cbv zeta.
  destruct (Z.leb_spec (Z.abs m) (2 ^ 53)); [reflexivity|lia].
Qed.

Example parseInt_trailing_text : JS.parseInt "20abc" = JS.Num 20.
Proof. reflexivity. Qed.

Example parseInt_fraction : JS.parseInt "12.9" = JS.Num 12.
Proof. reflexivity. Qed.

(** X11.  A step budget given once, as the decimal numeral of [n] with [n]
    from 1 to [2^53], with or without text after it that does not start with
    a digit or an [x], is read as [n]; when validation hands it on, [n] is
    the [maxSteps] of the configuration and of every processor built from
    it.  The text after the numeral is dropped. *)
Theorem numeral_step_budget_used (w : World) (argv : AnalyzeArgs) (n : nat)
    (t : string) (options : CLIOptions) :
  arg_llm_max_steps argv = Some (JS.showNat n ++ t)%string ->
  stopsNumeral t = true ->
  (1 <= n)%nat ->
  Z.of_nat n <= 2 ^ 53 ->
  CLIOptionsSchema_parse w (setupCommands argv) = inr options ->
  llmMaxSteps options = llmMaxSteps (setupCommands argv) ->
  maxSteps (llmConfigOf options) = JS.Num (Z.of_nat n) /\
  forall tr out cfg,
    execute w argv = (tr, out) ->
    In (NewLLMProcessor cfg) tr ->
    maxSteps cfg = JS.Num (Z.of_nat n).
Proof.
  intros Hgiven Ht Hn Hbound Hoptions Hsame.
  assert (Hsteps : maxSteps (llmConfigOf options) = JS.Num (Z.of_nat n)).
  { unfold llmConfigOf; cbn [maxSteps]. rewrite Hsame.
    unfold setupCommands; cbn [llmMaxSteps]. rewrite Hgiven.
    cbn [option_map]. rewrite (parseInt_showNat n t Ht).
    rewrite toDouble_exact by lia.
    cbn [JS.or_default JS.truthy].
    destruct (Z.eqb_spec (Z.of_nat n) 0); [lia|reflexivity]. }
  split; [exact Hsteps|].
  intros tr out cfg Hrun Hin.
  destruct (processor_config _ _ _ _ _ Hrun Hin) as (o & Ho & ->).
  rewrite Hoptions in Ho. injection Ho as <-. exact Hsteps.
Qed.

Lemma numeral_step_budget_used_witness :
  JS.showNat 20 = "20"%string /\
  maxSteps (llmConfigOf (setupCommands (Sample.argv None (Some "20abc") None)))
  = JS.Num 20 /\
  execute Sample.healthy (Sample.argv None (Some "20abc") None)
  = (Sample.successTrace (Sample.config 20) "markdown", Returned tt).
Proof.
  split; [reflexivity|].
  split; [|vm_compute; reflexivity].
  apply (numeral_step_budget_used Sample.healthy
           (Sample.argv None (Some "20abc") None) 20 "abc"
           (setupCommands (Sample.argv None (Some "20abc") None)));
    [reflexivity|reflexivity|lia|vm_compute; discriminate
    |reflexivity|reflexivity].
Defined.

(** ** Validation *)

(** X1.  When [CLIOptionsSchema] rejects the options object, the command
    throws a plain [Error] whose message is [Invalid options: ] followed by
    the message of what the schema threw, or by [Unknown error] when that
    was not an [Error]; no collaborator has been called. *)
Theorem options_rejected_first (w : World) (argv : AnalyzeArgs) (e : Exn) :
  CLIOptionsSchema_parse w (setupCommands argv) = inl e ->
  exists msg,
    execute w argv = ([], Threw (Error msg)) /\
    (instanceofError e = true ->
     msg = ("Invalid options: " ++ exn_message e)%string) /\
    (instanceofError e = false ->
     msg = "Invalid options: Unknown error"%string).
Proof.
  intros Hrejected.
  exists ("Invalid options: " ++ messageOr "Unknown error" e)%string.
  split.
  - unfold_run. rewrite Hrejected. reflexivity.
  - unfold messageOr. destruct (instanceofError e); split;
      intros H; try discriminate H; reflexivity.
Qed.

Lemma options_rejected_first_witness :
  execute Sample.strictOptions Sample.plainArgv
  = ([], Threw (Error "Invalid options: Required")).
Proof.
  destruct (options_rejected_first Sample.strictOptions Sample.plainArgv
              (Error "Required") eq_refl) as (msg & Hrun & Hmsg & _).
  rewrite Hrun, (Hmsg eq_refl). reflexivity.
Defined.

(** ** Failures *)

(** X2.  A run that throws either has made no call, and then throws a plain
    [Error] raised by one of the two validations, or its last call is a
    collaborator call that was answered with the very error the run throws:
    errors of the collaborators are passed on unchanged and nothing is done
    after one. *)
Theorem failure_source (w : World) (argv : AnalyzeArgs) (tr : list Event)
    (e : Exn) :
  execute w argv = (tr, Threw e) ->
  (tr = [] /\
   exists msg, e = Error msg /\
     (String.prefix "Invalid options: " msg = true \/
      String.prefix "LLM Configuration Error: " msg = true)) \/
  (exists pre ev o,
     tr = pre ++ [ev] /\
     CLIOptionsSchema_parse w (setupCommands argv) = inr o /\
     failureOf w (llmConfigOf o) ev (List.rev pre) = Some e).
Proof.
  remember (Threw e) as out eqn:Hout. intros H. revert Hout.
  paths H; intros Hout; try discriminate Hout; injection Hout as <-.
  1-2: left; split; [reflexivity|]; eexists; split; [reflexivity|].
  1: left; destruct (messageOr "Unknown error" e0); reflexivity.
  1: right; destruct (messageOr "Invalid LLM configuration" e0); reflexivity.
  all: right.
  all: match goal with
       | |- exists pre ev o', ?L = _ /\ _ =>
           exists (removelast L), (last L Cleanup), o
       end.
  all: cbn [removelast last Datatypes.app List.rev failureOf].
  all: repeat match goal with
              | Hc : _ /\ _ |- _ => destruct Hc
              end.
  all: split; [reflexivity|]; split; [assumption|].
  all: match goal with
       | Hf : _ = inl ?e |- _ = Some ?e => rewrite Hf; reflexivity
       end.
Qed.

Lemma failure_source_witness :
  execute Faulty.saveDown Sample.plainArgv
  = (before isSave (Sample.successTrace (Sample.config 50) "markdown")
     ++ [FormatAndSave Sample.result "rules.md" "markdown"],
     Threw Faulty.diskFull) /\
  exists pre ev o,
    before isSave (Sample.successTrace (Sample.config 50) "markdown")
    ++ [FormatAndSave Sample.result "rules.md" "markdown"] = pre ++ [ev] /\
    CLIOptionsSchema_parse Faulty.saveDown (setupCommands Sample.plainArgv)
    = inr o /\
    failureOf Faulty.saveDown (llmConfigOf o) ev (List.rev pre)
    = Some Faulty.diskFull.
Proof.
  assert (Hrun : execute Faulty.saveDown Sample.plainArgv
                 = (before isSave (Sample.successTrace (Sample.config 50) "markdown")
                    ++ [FormatAndSave Sample.result "rules.md" "markdown"],
                    Threw Faulty.diskFull))
    by (vm_compute; reflexivity).
  split; [exact Hrun|].
  destruct (failure_source _ _ _ _ Hrun) as [(Hnil & _)|Hlast].
  - discriminate Hnil.
  - exact Hlast.
Defined.

(** X14.  When the call to [initializeServers] throws, it is the last call of
    the run: [getTools] and [analyze] are never called, and the run ends with
    the very error [initializeServers] threw, details included. *)
Theorem discovery_failure_aborts (w : World) (argv : AnalyzeArgs)
    (tr pre post : list Event) (out : Outcome unit) (e : Exn) :
  execute w argv = (tr, out) ->
  tr = pre ++ InitializeServers :: post ->
  initializeServers w (List.rev pre) = inl e ->
  post = [] /\ out = Threw e /\
  times isGetTools tr = 0%nat /\ times isAnalyze tr = 0%nat.
Proof.
  intros H. paths H; intros Htr Hthrow; symmetry in Htr; locate Htr.
  all: cbn [Datatypes.app List.rev] in Hthrow.
  all: try (exfalso; intuition congruence).
  all: repeat split; try reflexivity; intuition congruence.
Qed.

Lemma discovery_failure_aborts_witness :
  initializeServers Sample.mcpDown [] = inl Sample.serverDown /\
  snd (execute Sample.mcpDown Sample.plainArgv) = Threw Sample.serverDown /\
  times isGetTools (fst (execute Sample.mcpDown Sample.plainArgv)) = 0%nat /\
  times isAnalyze (fst (execute Sample.mcpDown Sample.plainArgv)) = 0%nat.
Proof.
  split; [reflexivity|].
  destruct (execute Sample.mcpDown Sample.plainArgv) as [tr out] eqn:Hrun.
  assert (Htr : tr = [ NewLLMProcessor (Sample.config 50);
                       NewProgressTracker false true;
                       ProgressStart "Initializing analysis...";
                       ProgressUpdatePhase "scanning" "Initializing MCP servers..." ]
                     ++ InitializeServers :: [])
    by (vm_compute in Hrun; injection Hrun as <- _; reflexivity).
  exact (proj2 (discovery_failure_aborts Sample.mcpDown Sample.plainArgv
                  tr _ [] out Sample.serverDown Hrun Htr eq_refl)).
Defined.

(** X5.  When [cleanup] throws, it is the last call of the run: the run
    throws that error and [shutdownServers] is never called. *)
Theorem cleanup_failure_skips_shutdown (w : World) (argv : AnalyzeArgs)
    (tr pre post : list Event) (out : Outcome unit) (e : Exn) :
  execute w argv = (tr, out) ->
  tr = pre ++ Cleanup :: post ->
  cleanup w (List.rev pre) = inl e ->
  post = [] /\ out = Threw e /\ times isShutdownServers tr = 0%nat.
Proof.
  intros H. paths H; intros Htr Hthrow; symmetry in Htr; locate Htr.
  all: cbn [Datatypes.app List.rev] in Hthrow.
  all: try (exfalso; intuition congruence).
  all: repeat split; try reflexivity; intuition congruence.
Qed.

Lemma cleanup_failure_skips_shutdown_witness :
  cleanup Faulty.cleanupDown [] = inl Faulty.hangUp /\
  snd (execute Faulty.cleanupDown Sample.plainArgv) = Threw Faulty.hangUp /\
  times isShutdownServers (fst (execute Faulty.cleanupDown Sample.plainArgv))
  = 0%nat.
Proof.
  split; [reflexivity|].
  destruct (execute Faulty.cleanupDown Sample.plainArgv) as [tr out] eqn:Hrun.
  assert (Htr : tr = removelast (removelast
                       (Sample.successTrace (Sample.config 50) "markdown"))
                     ++ Cleanup :: [])
    by (vm_compute in Hrun; injection Hrun as <- _; reflexivity).
  exact (proj2 (cleanup_failure_skips_shutdown Faulty.cleanupDown
                  Sample.plainArgv tr _ [] out Faulty.hangUp Hrun Htr eq_refl)).
Defined.

(** X6.  The collaborator calls of a run are an initial part of
    [initializeServers], [getTools], [analyze], [formatAndSave], [cleanup],
    [shutdownServers]: each is made at most once, none is retried, none is
    made out of order; a run that returns has made all six. *)
Theorem calls_follow_lifecycle (w : World) (argv : AnalyzeArgs) :
  exists rest,
    calls (fst (execute w argv)) ++ rest = lifecycle /\
    (snd (execute w argv) = Returned tt -> rest = []).
Proof.
  destruct (execute w argv) as [tr out] eqn:H. cbn [fst snd].
  paths H; cbn [calls callOf Datatypes.app]; unfold lifecycle;
    eexists; (split; [reflexivity|]); intros Hr;
    first [discriminate Hr | reflexivity].
Qed.

(** The paths of the handler from the options object commander hands
    it, with their traces written out call by call. *)
Ltac handler_paths w raw :=
  let P := fresh "P" in
  let tr := fresh "tr" in
  let out := fresh "out" in
  let Htr := fresh "Htr" in
  let Hout := fresh "Hout" in
  pose proof (handleAnalyzeCommand_path w raw) as P;
  remember (List.rev (fst (handleAnalyzeCommand w raw []))) as tr eqn:Htr;
  remember (snd (handleAnalyzeCommand w raw [])) as out eqn:Hout;
  clear Htr Hout;
  destruct P;
  unfold saved, analysed, configured in *;
  unfold toCleanup, saveCall, report, toSave,
    toResult, extracted, toAnalysis, toCatalog, toDiscovery, banner in *;
  repeat match goal with
         | |- context [verbose ?o] =>
             let Hv := fresh "Hverbose" in
             (destruct (verbose o) eqn:Hv; rewrite ?Hv in *)
         end;
  cbn [Datatypes.app List.rev] in *.

(** X9.  Whatever options object it is invoked with, and whatever the
    collaborators answer, [handleAnalyzeCommand] itself never writes to the
    error stream, never ends the process and never marks the progress
    tracker as failed: it returns or throws. *)
Theorem handler_never_signals_failure (w : World) (raw : CLIOptions) :
  times isErrorReport (List.rev (fst (handleAnalyzeCommand w raw []))) = 0%nat /\
  times isProgressFail (List.rev (fst (handleAnalyzeCommand w raw []))) = 0%nat /\
  forall code, snd (handleAnalyzeCommand w raw []) <> Exited code.
Proof.
  handler_paths w raw; repeat split; try reflexivity; discriminate.
Qed.

(** ** Output *)

(** Membership in a trace that is known call by call. *)
Ltac member := cbn [List.In]; repeat (first [left; reflexivity | right]).

(** X7.  Success is announced at most once, and only directly after a call
    to [formatAndSave] that returned: when saving fails, or is never reached,
    the tracker is not marked as succeeded. *)
Theorem success_announced_after_save (w : World) (argv : AnalyzeArgs)
    (tr : list Event) (out : Outcome unit) (msg : string) :
  execute w argv = (tr, out) ->
  In (ProgressSucceed msg) tr ->
  exists r p f post,
    tr = before isSave tr ++ FormatAndSave r p f :: ProgressSucceed msg :: post /\
    formatAndSave w r p f (List.rev (before isSave tr)) = inr tt /\
    times isSave tr = 1%nat.
Proof.
  intros H. paths H; intros Hin; members Hin.
  all: injection Hin as <-.
  all: cbn [before isSave].
  all: do 4 eexists; split; [reflexivity|].
  all: cbn [List.rev Datatypes.app]; split; [tauto|reflexivity].
Qed.

Lemma success_announced_after_save_witness :
  In (ProgressSucceed "Analysis complete!")
     (Sample.successTrace (Sample.config 50) "markdown") /\
  times isSave (Sample.successTrace (Sample.config 50) "markdown") = 1%nat.
Proof.
  assert (Hin : In (ProgressSucceed "Analysis complete!")
                   (Sample.successTrace (Sample.config 50) "markdown"))
    by (do 11 right; left; reflexivity).
  split; [exact Hin|].
  destruct (success_announced_after_save Sample.healthy Sample.plainArgv
              (Sample.successTrace (Sample.config 50) "markdown")
              (Returned tt) "Analysis complete!")
    as (r & p & f & post & _ & _ & Honce).
  - vm_compute; reflexivity.
  - exact Hin.
  - exact Honce.
Defined.

(** X8.  Without [--verbose] a run writes nothing to standard output until
    the output has been saved: it writes either no line at all, or the six
    lines of the final report, after success was announced. *)
Theorem quiet_until_saved (w : World) (argv : AnalyzeArgs)
    (options : CLIOptions) (tr : list Event) (out : Outcome unit) :
  CLIOptionsSchema_parse w (setupCommands argv) = inr options ->
  verbose options = false ->
  execute w argv = (tr, out) ->
  times isConsoleLog tr = 0%nat \/
  (times isConsoleLog tr = 6%nat /\
   times isConsoleLog (before isSave tr) = 0%nat /\
   times isSave tr = 1%nat).
Proof.
  intros Ho Hquiet H. revert Ho Hquiet.
  paths H; intros Ho Hquiet.
  all: try (left; reflexivity).
  all: try (exfalso;
            assert (Heq : o = options) by (intuition congruence);
            subst o; congruence).
  all: right; repeat split; reflexivity.
Qed.

Lemma quiet_until_saved_witness :
  verbose (setupCommands Sample.plainArgv) = false /\
  times isConsoleLog (fst (execute Sample.healthy Sample.plainArgv)) = 6%nat /\
  times isConsoleLog (fst (execute Sample.mcpDown Sample.plainArgv)) = 0%nat.
Proof.
  split; [reflexivity|].
  split.
  - destruct (execute Sample.healthy Sample.plainArgv) as [tr out] eqn:Hrun.
    destruct (quiet_until_saved Sample.healthy Sample.plainArgv
                (setupCommands Sample.plainArgv) tr out eq_refl eq_refl Hrun)
      as [Hnone|(Hsix & _)].
    + vm_compute in Hrun. injection Hrun as <- _. discriminate Hnone.
    + exact Hsix.
  - vm_compute. reflexivity.
Defined.

(** X10.  A run that returns has told the user the path the formatter was
    given and the three counts of the result the formatter was given: the
    number of rules, of rules with priority ['high'] and of user-facing
    rules. *)
Theorem report_matches_saved (w : World) (argv : AnalyzeArgs)
    (tr : list Event) :
  execute w argv = (tr, Returned tt) ->
  exists r p f,
    In (FormatAndSave r p f) tr /\
    In (ConsoleLog [(blue, "📄 Output saved to: " ++ p)%string]) tr /\
    In (ConsoleLog
          [(plain, "  • Business rules extracted: "
                   ++ JS.showNat (length (businessRules r)))%string]) tr /\
    In (ConsoleLog
          [(plain, "  • High priority rules: "
                   ++ JS.showNat (countRules isHighPriority (businessRules r)))%string]) tr /\
    In (ConsoleLog
          [(plain, "  • User-facing rules: "
                   ++ JS.showNat (countRules userFacing (businessRules r)))%string]) tr.
Proof.
  remember (Returned tt) as out eqn:Hout. intros H. revert Hout.
  paths H; intros Hout; try discriminate Hout.
  all: exists (resultOf w o tools rules), (output o), (format o).
  all: cbn [resultOf businessRules summaryOf totalRules highPriorityRules
            userFacingRules].
  all: rewrite <- !length_filter_count.
  all: repeat split; member.
Qed.

Lemma report_matches_saved_witness :
  execute Sample.healthy Sample.plainArgv
  = (Sample.successTrace (Sample.config 50) "markdown", Returned tt) /\
  exists r p f,
    In (FormatAndSave r p f) (Sample.successTrace (Sample.config 50) "markdown") /\
    In (ConsoleLog [(blue, "📄 Output saved to: " ++ p)%string])
       (Sample.successTrace (Sample.config 50) "markdown").
Proof.
  assert (Hrun : execute Sample.healthy Sample.plainArgv
                 = (Sample.successTrace (Sample.config 50) "markdown", Returned tt))
    by (vm_compute; reflexivity).
  split; [exact Hrun|].
  destruct (report_matches_saved _ _ _ Hrun) as (r & p & f & Hsave & Hpath & _).
  exists r, p, f. split; assumption.
Defined.

(** ** The unused error handler *)

(** X3.  Whatever it is given, [handleError] writes one or two lines to the
    error stream and nothing else, and then ends the process with exit code
    1.  The first line is red and names the category: [LLM analysis error]
    and [MCP server error] for the two error classes, [Unexpected error] for
    anything else, with [Unknown error] as the message of a thrown value
    that is not an [Error]. *)
Theorem handleError_exits_with_1 (error : Exn) (h : History) :
  exists first rest,
    handleError error h
    = (ProcessExit 1 :: rest ++ ConsoleError [(red, first)] :: h, Exited 1) /\
    (rest = [] \/ exists detail, rest = [ConsoleError [(gray, detail)]]) /\
    first = match error with
            | LLMAnalysisError m _ => ("LLM analysis error: " ++ m)%string
            | MCPServerError m _ => ("MCP server error: " ++ m)%string
            | Error m => ("Unexpected error: " ++ m)%string
            | NonError _ => "Unexpected error: Unknown error"%string
            end.
Proof.
  unfold handleError, bind, emit, ret, processExit.
  destruct error as [m fp|m sn|m|v].
  - exists ("LLM analysis error: " ++ m)%string.
    destruct (detailGiven fp) as [p|].
    + exists [ConsoleError [(gray, "File: " ++ p)%string]]. split; eauto.
    + exists []. split; auto.
  - exists ("MCP server error: " ++ m)%string.
    destruct (detailGiven sn) as [n|].
    + exists [ConsoleError [(gray, "Server: " ++ n)%string]]. split; eauto.
    + exists []. split; auto.
  - exists ("Unexpected error: " ++ m)%string, []. split; auto.
  - exists "Unexpected error: Unknown error"%string, []. split; auto.
Qed.

(** X4.  [handleError] writes the second line exactly when the error is an
    [LLMAnalysisError] with a non-empty file path or an [MCPServerError]
    with a non-empty server name, and the line ends with that detail; an
    empty or missing detail, and any other error, gives one line only. *)
Theorem handleError_detail_line (error : Exn) (h : History) :
  match detailOf error with
  | Some (String c s) =>
      times isConsoleError (fst (handleError error h))
      = (2 + times isConsoleError h)%nat /\
      exists label,
        In (ConsoleError [(gray, label ++ String c s)%string])
           (fst (handleError error h))
  | _ =>
      times isConsoleError (fst (handleError error h))
      = (1 + times isConsoleError h)%nat
  end.
Proof.
  unfold handleError, bind, emit, ret, processExit, times.
  destruct error as [m [[|c s]|]|m [[|c s]|]|m|v];
    cbn [detailOf detailGiven fst filter isConsoleError length];
    try reflexivity.
  - split; [reflexivity|]. exists "File: "%string. right; left; reflexivity.
  - split; [reflexivity|]. exists "Server: "%string. right; left; reflexivity.
Qed.

Example handleError_empty_file_path :
  fst (handleError (LLMAnalysisError "rate limited" (Some "")) [])
  = [ ProcessExit 1; ConsoleError [(red, "LLM analysis error: rate limited")] ].
Proof. reflexivity. Qed.

(** ** What the options reach *)

(** X12.  The [directory] option reaches no collaborator: two validated
    options objects that differ only in [directory] give, without
    [--verbose], the same run call for call. *)
Theorem directory_reaches_nothing (w : World) (raw1 raw2 o1 o2 : CLIOptions) :
  CLIOptionsSchema_parse w raw1 = inr o1 ->
  CLIOptionsSchema_parse w raw2 = inr o2 ->
  sameButDirectory o1 o2 ->
  verbose o1 = false ->
  forall h, handleAnalyzeCommand w raw1 h = handleAnalyzeCommand w raw2 h.
Proof.
  intros H1 H2 Hsame Hquiet h.
  destruct o1 as [d1 u1 b1 k1 m1 f1 v1 t1 s1], o2 as [d2 u2 b2 k2 m2 f2 v2 t2 s2].
  unfold sameButDirectory in Hsame; cbn in Hsame, Hquiet.
  destruct Hsame as (<- & <- & <- & <- & <- & <- & <- & <-). subst v1.
  unfold handleAnalyzeCommand, validateOptions, bind, tryCatch, pure.
  rewrite H1, H2. reflexivity.
Qed.

Lemma directory_reaches_nothing_witness :
  directory (setupCommands Sample.plainArgv) = "./app"%string /\
  execute Sample.healthy
    {| arg_directory := "/srv/other";
       arg_output := "rules.md";
       arg_llm_base_url := "https://api.openai.com/v1";
       arg_llm_api_key := "sk-test";
       arg_llm_model := "gpt-4";
       arg_format := None;
       arg_verbose := false;
       arg_llm_max_tokens := None;
       arg_llm_max_steps := None |}
  = execute Sample.healthy Sample.plainArgv.
Proof.
  split; [reflexivity|].
  unfold execute, run.
  rewrite (directory_reaches_nothing Sample.healthy _
             (setupCommands Sample.plainArgv) _ _ eq_refl eq_refl).
  - reflexivity.
  - unfold sameButDirectory; repeat split.
  - reflexivity.
Defined.

(** X13.  Every [console.log] call the handler itself makes writes one of
    eleven lines: a line of the banner, built from the directory, the output
    path and the format of the validated options, or a line built from the
    output path and from the length, the high-priority count and the
    user-facing count of a rule sequence [analyze] returned for the
    configuration of those options.  The API key, the base URL and the model
    are in none of them. *)
Theorem handler_prints_no_credentials (w : World) (argv : AnalyzeArgs)
    (tr : list Event) (out : Outcome unit) (line : Text) :
  execute w argv = (tr, out) ->
  In (ConsoleLog line) tr ->
  exists o,
    CLIOptionsSchema_parse w (setupCommands argv) = inr o /\
    (In line (bannerLines (directory o) (output o) (format o)) \/
     exists tools h rules,
       analyze w (llmConfigOf o) tools h = inr rules /\
       In line (reportLines (output o) (length rules)
                  (countRules isHighPriority rules)
                  (countRules userFacing rules))).
Proof.
  intros H. paths H; intros Hin; members Hin.
  all: injection Hin as <-.
  all: repeat match goal with
              | Hc : _ /\ _ |- _ => destruct Hc
              end.
  all: exists o; split; [assumption|].
  all: first
         [ left; unfold bannerLines; solve [member]
         | right; do 3 eexists; split; [eassumption|];
           unfold reportLines;
           cbn [summaryOf totalRules highPriorityRules userFacingRules];
           rewrite <- !length_filter_count; solve [member] ].
Qed.

Lemma handler_prints_no_credentials_witness :
  In (ConsoleLog [(plain, "  • High priority rules: 2")])
     (Sample.successTrace (Sample.config 50) "markdown") /\
  exists o,
    CLIOptionsSchema_parse Sample.healthy (setupCommands Sample.plainArgv) = inr o /\
    (In [(plain, "  • High priority rules: 2")]
        (bannerLines (directory o) (output o) (format o)) \/
     exists tools h rules,
       analyze Sample.healthy (llmConfigOf o) tools h = inr rules /\
       In [(plain, "  • High priority rules: 2")]
          (reportLines (output o) (length rules)
             (countRules isHighPriority rules)
             (countRules userFacing rules))).
Proof.
  assert (Hin : In (ConsoleLog [(plain, "  • High priority rules: 2")])
                   (Sample.successTrace (Sample.config 50) "markdown"))
    by (do 16 right; left; reflexivity).
  split; [exact Hin|].
  apply (handler_prints_no_credentials Sample.healthy Sample.plainArgv
           (Sample.successTrace (Sample.config 50) "markdown") (Returned tt)).
  - vm_compute; reflexivity.
  - exact Hin.
Defined.
